(** * atomate2.vasp.drones: the VASP drone

    A shallow embedding of [src/atomate2/vasp/drones.py] (class [VaspDrone])
    and the properties of its two methods, [get_valid_paths] (the directory
    classifier) and [assimilate] (the pass-through to the task-document
    parser).

    Python strings are [string], lists are [list], [set] is stdpp's [gset].
    The two methods have effects: [get_valid_paths] globs the file system,
    [assimilate] calls the external parser and writes to the module logger,
    and both may raise.  They are embedded in a small monad [Py] that threads
    the trace of effects performed so far and returns either a raised
    exception or a value.  POSIX is assumed: [os.sep] is ["/"] and file name
    matching is case sensitive. *)

From Stdlib Require Import Ascii String.
From stdpp Require Import base decidable option list gmap strings pretty.

(** ** Python string operations used by the module *)

(** [os.sep] on POSIX. *)
Definition os_sep : string := "/".

(** The newline escape of the f-string in [assimilate]. *)
Definition newline : string := String (ascii_of_nat 10) EmptyString.

(** [s.endswith(suf)]: [suf] is a suffix of [s]. *)
Fixpoint endswith (s suf : string) : bool :=
  if String.eqb s suf then true
  else match s with
       | EmptyString => false
       | String _ s' => endswith s' suf
       end.

(** [posixpath.join(a, b)], by which [os.walk] forms the path of each
    subdirectory [b] of a directory [a] it descends into. *)
Definition os_path_join (a b : string) : string :=
  if String.prefix os_sep b then b
  else if String.eqb a "" || endswith a os_sep then a +:+ b
  else a +:+ os_sep +:+ b.

(** [str(i)] for a non-negative [int], as the f-string [f"relax{i}"] formats
    it: the decimal numeral. *)
Definition str_of_nat (i : nat) : string := pretty i.

(** [any(l)] on a list of booleans. *)
Definition any (l : list bool) : bool := existsb id l.

(** [fnmatch.fnmatchcase(name, pat)] for patterns built from literal
    characters, [?] and [*] (no bracket expressions, which the pattern of
    this module does not use).  This is the matcher [pathlib] applies to each
    directory entry when globbing a single path component. *)
Fixpoint fnmatchcase (name pat : string) : bool :=
  match pat with
  | EmptyString =>
      match name with EmptyString => true | String _ _ => false end
  | String p pat' =>
      if Ascii.eqb p "*" then
        (fix star (n : string) : bool :=
           fnmatchcase n pat' ||
           match n with
           | EmptyString => false
           | String _ n' => star n'
           end) name
      else
        match name with
        | EmptyString => false
        | String c name' =>
            (Ascii.eqb p "?" || Ascii.eqb p c) && fnmatchcase name' pat'
        end
  end.

(** The spec's "final path segment" of a path string: the text after its
    last separator, the whole string when it has none (what
    [os.path.basename] returns).  The code never computes it; the
    properties below relate it to the suffix test the code performs. *)
Fixpoint contains_sep (s : string) : bool :=
  match s with
  | EmptyString => false
  | String c s' => Ascii.eqb c "/" || contains_sep s'
  end.

Fixpoint final_segment (s : string) : string :=
  match s with
  | EmptyString => EmptyString
  | String _ s' => if contains_sep s then final_segment s' else s
  end.

(** A pattern prefix without wildcards. *)
Fixpoint literal (pat : string) : bool :=
  match pat with
  | EmptyString => true
  | String p pat' =>
      negb (Ascii.eqb p "*") && negb (Ascii.eqb p "?") && literal pat'
  end.

(** ** The interpreter and the collaborators *)

(** What the drone takes from the interpreter and from its collaborators,
    over the exceptions of the run ([BaseException] instances) and the
    documents and keyword arguments of the external parser, all opaque to
    the drone:
    - [isinstance(e, Exception)], what an [except Exception] clause catches
      ([KeyboardInterrupt], [SystemExit] and [GeneratorExit] are the
      [BaseException]s for which it is [false]);
    - [TaskDocument.from_directory(path, **kwargs)], the external parser, by
      its outcome;
    - [traceback.format_exc()] inside the handler of an exception [e];
    - [Path.cwd()], and [Path(path).absolute()] as a string; both ask the
      system for the working directory ([os.getcwd()], the second for a
      relative path) and raise when it cannot be had. *)
Class Runtime (BaseException TaskDocument Kwargs : Type) := {
  isinstance_Exception : BaseException → bool;
  TaskDocument_from_directory :
    string → Kwargs → BaseException + TaskDocument;
  traceback_format_exc : BaseException → string;
  Path_cwd : BaseException + string;
  Path_absolute : string → BaseException + string
}.

Section Drone.

Context {BaseException TaskDocument Kwargs : Type}.
Context {runtime : Runtime BaseException TaskDocument Kwargs}.

(** ** The effect monad *)

(** Severity levels of [logging] that matter here. *)
Inductive level := ERROR | WARNING | INFO | DEBUG.

(** The observable effects, in the order they happen. *)
Inductive event :=
| EvGlob (directory pattern : string)
    (* [Path(directory).glob(pattern)] was evaluated *)
| EvParse (path : string) (kwargs : Kwargs)
    (* [TaskDocument.from_directory(path, **kwargs)] was called *)
| EvLog (lvl : level) (msg : string).
    (* a record was emitted through the module's [logger] *)

Definition trace := list event.

(** A computation: from the trace so far to an exception or a value, and
    the trace extended with the computation's own effects. *)
Definition Py (A : Type) : Type := trace → (BaseException + A) * trace.

Definition ret {A} (a : A) : Py A := λ t, (inr a, t).

Definition raise {A} (e : BaseException) : Py A := λ t, (inl e, t).

Definition bind {A B} (m : Py A) (k : A → Py B) : Py B :=
  λ t, match m t with
       | (inl e, t') => (inl e, t')
       | (inr a, t') => k a t'
       end.

(** [try: body / except Exception: handler]: the handler runs for the
    exceptions the clause catches; any other propagates untouched. *)
Definition try_except_Exception {A}
    (body : Py A) (handler : BaseException → Py A) : Py A :=
  λ t, match body t with
       | (inl e, t') =>
           if isinstance_Exception e then handler e t' else (inl e, t')
       | (inr a, t') => (inr a, t')
       end.

Definition emit (ev : event) : Py unit := λ t, (inr tt, t ++ [ev]).

(** A call to the outside that leaves no event: it returns or raises. *)
Definition call {A} (outcome : BaseException + A) : Py A := λ t, (outcome, t).

#[global] Instance Py_ret : MRet Py := @ret.
#[global] Instance Py_bind : MBind Py := λ A B k m, bind m k.

(** ** The file system *)

(** The file system as [Path.glob] sees it: for a directory path, the names
    of its entries, or the error that globbing it raises.  What [pathlib]
    absorbs itself (a path that does not exist or is not a directory, and in
    most versions a directory without read permission) shows as no
    entries. *)
Definition FileSystem : Type := string → BaseException + list string.

(** [Path(directory).glob(pattern)] for a one-component pattern, as the
    list of the names it yields (each stands for the child path
    [directory/name]). *)
Definition Path_glob (fs : FileSystem) (directory pattern : string)
  : Py (list string) :=
  _ ← emit (EvGlob directory pattern);
  match fs directory with
  | inl e => raise e
  | inr entries => mret (List.filter (λ n, fnmatchcase n pattern) entries)
  end.

(** ** class VaspDrone *)

Record VaspDrone := { task_document_kwargs : Kwargs }.


(** The local [task_names] of [get_valid_paths]:
    [["precondition"] + [f"relax{i}" for i in range(9)]]. *)
Definition task_names : list string :=
  ["precondition"] ++ map (λ i, "relax" +:+ str_of_nat i) (seq 0 9).

(** [any([parent.endswith(os.sep + r) for r in task_names])]. *)
Definition ends_with_task_name (parent : string) : bool :=
  any (map (λ r, endswith parent (os_sep +:+ r)) task_names).

(** [set(task_names).intersection(subdirs)], and its truth value. *)
Definition task_subdirs (subdirs : list string) : gset string :=
  list_to_set task_names ∩ list_to_set subdirs.

(** [get_valid_paths(self, path)], with the file system it globs.  The two
    [if]s are the two rules; in the second, [and] does not evaluate the glob
    when the name test has already failed. *)
Definition get_valid_paths (fs : FileSystem) (self : VaspDrone)
    (path : string * list string * list string) : Py (list string) :=
  let '(parent, subdirs, _) := path in
  if bool_decide (task_subdirs subdirs ≠ ∅) then mret [parent]
  else
    cond ← (if negb (ends_with_task_name parent)
            then found ← Path_glob fs parent "vasprun.xml*";
                 mret (bool_decide (0 < length found))
            else mret false);
    if (cond : bool) then mret [parent] else mret [].

(** The call [TaskDocument.from_directory(path, **kwargs)] as an effect. *)
Definition from_directory (path : string) (kwargs : Kwargs)
  : Py TaskDocument :=
  _ ← emit (EvParse path kwargs);
  match TaskDocument_from_directory path kwargs with
  | inl e => raise e
  | inr doc => mret doc
  end.

(** [logger.error(msg)]: one record through the module's logger.  The call
    returns: [logging] reports the errors of its handlers itself. *)
Definition logger_error (msg : string) : Py unit := emit (EvLog ERROR msg).

(** The message of the f-string in the handler, from the absolute path:
    [f"Error in {Path(path).absolute()}\n{traceback.format_exc()}"]. *)
Definition error_message (absolute : string) (e : BaseException) : string :=
  "Error in " +:+ absolute +:+ newline +:+ traceback_format_exc e.

(** [assimilate(self, path=None)].  [Path.cwd()] is called before the
    [try], so what it raises is not handled.  In the handler the f-string
    takes the absolute path first: when that raises, the new exception
    leaves the handler and nothing is logged.  The bare [raise] raises the
    exception being handled. *)
Definition assimilate (self : VaspDrone) (path : option string)
  : Py TaskDocument :=
  path ← match path with
         | None => call Path_cwd
         | Some p => mret p
         end;
  doc ← try_except_Exception
           (from_directory path (task_document_kwargs self))
           (λ e, absolute ← call (Path_absolute path);
                 _ ← logger_error (error_message absolute e);
                 raise e);
  mret doc.

(** The path [assimilate] works on once the default is applied: the
    argument, or what [Path.cwd()] returns or raises. *)
Definition resolved_path (path : option string) : BaseException + string :=
  match path with
  | None => Path_cwd
  | Some p => inr p
  end.

End Drone.

(** ** A small world to run the drone in

    Three exception classes, a file system, and a parser that only knows
    [/run/final]. *)
Inductive py_exception :=
| OSError (msg : string)
| FileNotFoundError (msg : string)
| KeyboardInterrupt.

Definition py_isinstance_Exception (e : py_exception) : bool :=
  match e with
  | KeyboardInterrupt => false
  | _ => true
  end.

Definition py_format_exc (e : py_exception) : string :=
  match e with
  | OSError msg => "OSError: " +:+ msg
  | FileNotFoundError msg => "FileNotFoundError: " +:+ msg
  | KeyboardInterrupt => "KeyboardInterrupt"
  end.

Definition demo_fs : @FileSystem py_exception := λ directory,
  if String.eqb directory "/run/final" then inr ["INCAR"; "vasprun.xml.gz"]
  else if String.eqb directory "/run/relax0" then inr ["vasprun.xml"]
  else if String.eqb directory "relax0" then inr ["vasprun.xml"]
  else if String.eqb directory "/faulty" then inl (OSError "/faulty")
  else inr [].

Definition unreadable_fs : @FileSystem py_exception := λ directory,
  inl (OSError directory).

Definition demo_drone : @VaspDrone unit := {| task_document_kwargs := tt |}.

Definition demo_parser (path : string) (_ : unit) : py_exception + nat :=
  if String.eqb path "/run/final" then inr 42
  else inl (FileNotFoundError path).

Definition demo_absolute (path : string) : string :=
  if String.prefix "/" path then path else "/home/user/" +:+ path.

Definition demo_runtime : Runtime py_exception nat unit := {|
  isinstance_Exception := py_isinstance_Exception;
  TaskDocument_from_directory := demo_parser;
  traceback_format_exc := py_format_exc;
  Path_cwd := inr "/home/user";
  Path_absolute := λ path, inr (demo_absolute path)
|}.

Definition demo_assimilate := assimilate (runtime := demo_runtime).

(** The same world with a parse that is interrupted from the keyboard. *)
Definition interrupted_runtime : Runtime py_exception nat unit := {|
  isinstance_Exception := py_isinstance_Exception;
  TaskDocument_from_directory := λ _ _, inl KeyboardInterrupt;
  traceback_format_exc := py_format_exc;
  Path_cwd := inr "/home/user";
  Path_absolute := λ path, inr (demo_absolute path)
|}.

(** The same world after the working directory was removed: [os.getcwd()]
    fails, so [Path.cwd()] raises and so does [absolute()] on a relative
    path. *)
Definition no_cwd_runtime : Runtime py_exception nat unit := {|
  isinstance_Exception := py_isinstance_Exception;
  TaskDocument_from_directory := demo_parser;
  traceback_format_exc := py_format_exc;
  Path_cwd := inl (FileNotFoundError "getcwd");
  Path_absolute := λ path,
    if String.prefix "/" path then inr path
    else inl (FileNotFoundError "getcwd")
|}.

(** A walk started at [calc/relax1/], written with a trailing separator. *)
Definition trailing_fs : @FileSystem py_exception := λ directory,
  if String.eqb directory "calc/relax1/" then inr ["OUTCAR"; "vasprun.xml"]
  else inr [].

(** The listing of [/run/final] after more output was written there. *)
Definition later_fs : @FileSystem py_exception := λ directory,
  if String.eqb directory "/run/final"
  then inr ["vasprun.xml.gz"; "OUTCAR"; "INCAR"; "CONTCAR"]
  else demo_fs directory.

(** * Properties *)

(** stdpp blocks the unfolding of string append; the proofs below compute
    with it. *)
#[local] Arguments String.append !_ _ / : simpl nomatch.

(** ** Strings: suffixes, prefixes and the final segment *)

Lemma string_app_length (a b : string) :
  String.length (a +:+ b) = String.length a + String.length b.
Proof. induction a as [|c a IH]; simpl; [done | by rewrite IH]. Qed.

Lemma endswith_spec (s suf : string) :
  endswith s suf = true ↔ ∃ pre, s = pre +:+ suf.
Proof.
  induction s as [|c s IH]; cbn [endswith].
  - destruct (String.eqb_spec "" suf) as [<- | Hne].
    + split; [by exists ""%string | done].
    + split; [done | intros [[|? ?] Hpre]; simpl in Hpre; simplify_eq].
  - destruct (String.eqb_spec (String c s) suf) as [<- | Hne].
    + split; [by exists ""%string | done].
    + rewrite IH. split; intros [pre Hpre].
      * exists (String c pre). simpl. by rewrite Hpre.
      * destruct pre as [|c' pre]; simpl in Hpre; [by subst |].
        injection Hpre as -> ->. by exists pre.
Qed.

Lemma prefix_spec (p n : string) :
  String.prefix p n = true ↔ ∃ rest, n = p +:+ rest.
Proof.
  revert n. induction p as [|c p IH]; intros n; simpl.
  - destruct n; split; eauto.
  - destruct n as [|d n]; simpl.
    + split; [done | by intros [? ?]].
    + destruct (ascii_dec c d) as [<- | Hne].
      * rewrite IH. split; intros [rest Hs]; exists rest; by simplify_eq/=.
      * split; [done | intros [? Hs]; by simplify_eq/=].
Qed.

Lemma contains_sep_app (a b : string) :
  contains_sep (a +:+ b) = contains_sep a || contains_sep b.
Proof.
  induction a as [|c a IH]; simpl; [done |]. by rewrite IH, orb_assoc.
Qed.

Lemma final_segment_no_sep (s : string) :
  contains_sep s = false → final_segment s = s.
Proof. destruct s as [|c s]; simpl; [done |]. by intros ->. Qed.

Lemma contains_sep_final_segment (s : string) :
  contains_sep (final_segment s) = false.
Proof.
  induction s as [|c s IH]; [done |].
  change (final_segment (String c s))
    with (if contains_sep (String c s) then final_segment s else String c s).
  by destruct (contains_sep (String c s)) eqn:Hsep.
Qed.

(** After a separator, a name without separators is the final segment. *)
Lemma final_segment_app (pre r : string) :
  contains_sep r = false → final_segment (pre +:+ os_sep +:+ r) = r.
Proof.
  intros Hr. induction pre as [|c pre IH].
  - simpl. by apply final_segment_no_sep.
  - change (final_segment (String c pre +:+ os_sep +:+ r))
      with (if contains_sep (String c (pre +:+ os_sep +:+ r))
            then final_segment (pre +:+ os_sep +:+ r)
            else String c (pre +:+ os_sep +:+ r)).
    replace (contains_sep (String c (pre +:+ os_sep +:+ r))) with true; [done |].
    simpl. rewrite contains_sep_app. simpl. by rewrite !orb_true_r.
Qed.

(** A path is its final segment, or ends with a separator and its final
    segment. *)
Lemma final_segment_decomp (s : string) :
  s = final_segment s ∨ ∃ pre, s = pre +:+ os_sep +:+ final_segment s.
Proof.
  induction s as [|c s IH]; [by left |].
  change (final_segment (String c s))
    with (if contains_sep (String c s) then final_segment s else String c s).
  destruct (contains_sep (String c s)) eqn:Hsep; [right | by left].
  destruct IH as [Heq | [pre Hpre]].
  - simpl in Hsep. apply orb_true_iff in Hsep as [Hc | Hs].
    + apply Ascii.eqb_eq in Hc as ->. by exists ""%string; simpl; rewrite <- Heq.
    + rewrite Heq, contains_sep_final_segment in Hs. done.
  - exists (String c pre). cbn [String.append]. by f_equal.
Qed.

Lemma app_sep_neq (pre r : string) : pre +:+ os_sep +:+ r ≠ r.
Proof.
  intros Heq. apply (f_equal String.length) in Heq.
  rewrite !string_app_length in Heq. simpl in Heq. lia.
Qed.

(** ** File name matching *)

Lemma fnmatchcase_star (n : string) : fnmatchcase n "*" = true.
Proof. induction n as [|c n IH]; [done |]. simpl in *. exact IH. Qed.

Lemma fnmatchcase_literal_star (lit n : string) :
  literal lit = true →
  fnmatchcase n (lit +:+ "*") = String.prefix lit n.
Proof.
  revert n. induction lit as [|p lit IH]; intros n Hlit.
  - rewrite fnmatchcase_star. by destruct n.
  - simpl in Hlit. apply andb_true_iff in Hlit as [Hp Hlit].
    apply andb_true_iff in Hp as [Hstar Hq].
    apply negb_true_iff in Hstar, Hq.
    simpl. rewrite Hstar. destruct n as [|c n]; [done |].
    rewrite Hq, IH by done. simpl.
    destruct (ascii_dec p c) as [-> | Hne].
    + by rewrite Ascii.eqb_refl.
    + by apply Ascii.eqb_neq in Hne as ->.
Qed.

(** The pattern of [get_valid_paths] is a prefix match. *)
Lemma fnmatchcase_vasprun (n : string) :
  fnmatchcase n "vasprun.xml*" = true ↔ ∃ rest, n = "vasprun.xml" +:+ rest.
Proof.
  rewrite <- prefix_spec.
  by rewrite <- (fnmatchcase_literal_star "vasprun.xml" n eq_refl).
Qed.

(** ** The reserved names *)

Lemma task_names_eq :
  task_names =
  ["precondition"; "relax0"; "relax1"; "relax2"; "relax3"; "relax4";
   "relax5"; "relax6"; "relax7"; "relax8"]%string.
Proof. vm_compute. reflexivity. Qed.

Lemma task_names_no_sep (r : string) :
  r ∈ task_names → contains_sep r = false.
Proof.
  revert r. apply Forall_forall. rewrite task_names_eq.
  repeat constructor.
Qed.

Lemma task_subdirs_empty (subdirs : list string) :
  task_subdirs subdirs = ∅ ↔ ∀ d, d ∈ subdirs → d ∉ task_names.
Proof.
  unfold task_subdirs. split.
  - intros Hempty d Hd Hr.
    apply (not_elem_of_empty (C:=gset string) d). rewrite <- Hempty.
    apply elem_of_intersection. by rewrite !elem_of_list_to_set.
  - intros Hdisj. apply set_eq. intros d.
    rewrite elem_of_intersection, !elem_of_list_to_set.
    split; [| by intros ?%not_elem_of_empty].
    intros [Hr Hd]. by destruct (Hdisj d).
Qed.

Lemma task_subdirs_inhabited (subdirs : list string) (d : string) :
  d ∈ subdirs → d ∈ task_names → task_subdirs subdirs ≠ ∅.
Proof.
  intros Hd Hr Hempty. by apply (proj1 (task_subdirs_empty subdirs) Hempty d).
Qed.

(** The name test of the second rule is a suffix test: separator, then a
    reserved name. *)
Lemma ends_with_task_name_spec (parent : string) :
  ends_with_task_name parent = true ↔
  ∃ r pre, r ∈ task_names ∧ parent = pre +:+ os_sep +:+ r.
Proof.
  unfold ends_with_task_name, any.
  rewrite existsb_exists. split.
  - intros (b & Hin & Hb). unfold id in Hb. subst b.
    apply in_map_iff in Hin as (r & Hends & Hr).
    apply endswith_spec in Hends as [pre Hpre].
    exists r, pre. by rewrite <- list_elem_of_In in Hr.
  - intros (r & pre & Hr & Hpre). exists true. split; [| done].
    apply in_map_iff. exists r. split.
    + apply endswith_spec. by exists pre.
    + by apply list_elem_of_In.
Qed.

(** In terms of the final segment: it is reserved, and something (which then
    ends with a separator) stands before it. *)
Lemma ends_with_task_name_final_segment (parent : string) :
  ends_with_task_name parent = true ↔
  final_segment parent ∈ task_names ∧ parent ≠ final_segment parent.
Proof.
  rewrite ends_with_task_name_spec. split.
  - intros (r & pre & Hr & ->).
    rewrite final_segment_app by by apply task_names_no_sep.
    split; [done | apply app_sep_neq].
  - intros [Hr Hne].
    destruct (final_segment_decomp parent) as [Heq | [pre Hpre]]; [done |].
    by exists (final_segment parent), pre.
Qed.

(** ** The three outcomes of [get_valid_paths] *)

(** Runs the monadic plumbing of a computation applied to a trace. *)
Ltac py_unfold :=
  unfold Path_glob, from_directory, logger_error, try_except_Exception,
    mbind, Py_bind, bind, mret, Py_ret, ret, raise, emit, call;
  cbv beta iota.

Section Classifier.

Context {BaseException Kwargs : Type}.
Implicit Types (fs : @FileSystem BaseException) (self : @VaspDrone Kwargs).
Implicit Types (parent : string) (subdirs files : list string).
Implicit Types (t : @trace Kwargs).

Lemma get_valid_paths_rule1 fs self parent subdirs files t :
  task_subdirs subdirs ≠ ∅ →
  get_valid_paths fs self (parent, subdirs, files) t = (inr [parent], t).
Proof.
  intros Hne. unfold get_valid_paths. by rewrite bool_decide_eq_true_2.
Qed.

Lemma get_valid_paths_excluded fs self parent subdirs files t :
  task_subdirs subdirs = ∅ →
  ends_with_task_name parent = true →
  get_valid_paths fs self (parent, subdirs, files) t = (inr [], t).
Proof.
  intros Hempty Hends. unfold get_valid_paths.
  rewrite bool_decide_eq_false_2 by (by intros []).
  by rewrite Hends.
Qed.

Lemma get_valid_paths_glob fs self parent subdirs files t :
  task_subdirs subdirs = ∅ →
  ends_with_task_name parent = false →
  get_valid_paths fs self (parent, subdirs, files) t =
  match fs parent with
  | inl e => (inl e, t ++ [EvGlob parent "vasprun.xml*"])
  | inr entries =>
      (inr (if bool_decide
                 (0 < length (List.filter
                                (λ n, fnmatchcase n "vasprun.xml*") entries))
            then [parent] else []),
       t ++ [EvGlob parent "vasprun.xml*"])
  end.
Proof.
  intros Hempty Hends. unfold get_valid_paths.
  rewrite bool_decide_eq_false_2 by (by intros []).
  rewrite Hends. py_unfold.
  destruct (fs parent) as [e | entries]; [done |].
  by case_bool_decide.
Qed.

End Classifier.

(** ** Properties of [get_valid_paths] *)

Section ClassifierProperties.

Context {BaseException Kwargs : Type}.
Implicit Types (fs : @FileSystem BaseException) (self : @VaspDrone Kwargs).
Implicit Types (parent d : string) (subdirs files entries : list string).
Implicit Types (t : @trace Kwargs).

(** When the glob of the second rule is reached and the directory cannot be
    read, the error propagates: the classifier has a failing outcome. *)
Lemma get_valid_paths_glob_error fs self parent subdirs files t e :
  task_subdirs subdirs = ∅ →
  ends_with_task_name parent = false →
  fs parent = inl e →
  get_valid_paths fs self (parent, subdirs, files) t =
  (inl e, t ++ [EvGlob parent "vasprun.xml*"]).
Proof.
  intros Hempty Hends Hfs.
  by rewrite get_valid_paths_glob, Hfs.
Qed.

Lemma filter_vasprun_nil entries :
  List.filter (λ n, fnmatchcase n "vasprun.xml*") entries = [] ↔
  ∀ n rest, n ∈ entries → n ≠ ("vasprun.xml" +:+ rest)%string.
Proof.
  split.
  - intros Hnil n rest Hn ->.
    assert (In ("vasprun.xml" +:+ rest)%string
              (List.filter (λ n, fnmatchcase n "vasprun.xml*") entries))
      as Hin; [| by rewrite Hnil in Hin].
    apply filter_In. split; [by apply list_elem_of_In |].
    apply fnmatchcase_vasprun. by exists rest.
  - intros Hnone.
    destruct (List.filter _ entries) as [|n l] eqn:Hf; [done |].
    assert (In n (List.filter (λ n, fnmatchcase n "vasprun.xml*") entries))
      as [Hn Hmatch]%filter_In by (rewrite Hf; by left).
    apply fnmatchcase_vasprun in Hmatch as [rest ->].
    by destruct (Hnone _ rest (proj2 (list_elem_of_In _ _) Hn)).
Qed.

(** C1: if some immediate subdirectory bears a reserved name, the classifier
    returns [[parent]], whatever the files component and whatever the
    directory itself contains (the first rule is decided before the second
    and wins). *)
Theorem get_valid_paths_task_container fs self parent subdirs files t d :
  d ∈ subdirs → d ∈ task_names →
  get_valid_paths fs self (parent, subdirs, files) t = (inr [parent], t).
Proof.
  intros Hd Hr. apply get_valid_paths_rule1.
  by apply (task_subdirs_inhabited subdirs d).
Qed.

(** C2, as the code has it: a directory whose path ends with the separator
    followed by a reserved name (its final segment is reserved and is not the
    whole path) and that has no reserved subdirectory is rejected, whatever
    it contains, without a look at the file system.  The test is a suffix
    test on separator-plus-name: it holds exactly when the final segment is
    reserved and preceded by a separator, so neither a longer segment such
    as [myrelax0] nor a bare one-component path such as [relax0] is
    excluded by it. *)
Theorem get_valid_paths_reserved_suffix :
  (∀ fs self parent subdirs files t,
     (∀ d, d ∈ subdirs → d ∉ task_names) →
     final_segment parent ∈ task_names →
     parent ≠ final_segment parent →
     get_valid_paths fs self (parent, subdirs, files) t = (inr [], t))
  ∧ (∀ parent,
       ends_with_task_name parent = true ↔
       final_segment parent ∈ task_names ∧ parent ≠ final_segment parent)
  ∧ ends_with_task_name "/run/myrelax0" = false
  ∧ ends_with_task_name "relax0" = false.
Proof.
  split; [| split; [| split]].
  - intros fs self parent subdirs files t Hsub Hseg Hne.
    apply get_valid_paths_excluded.
    + by apply task_subdirs_empty.
    + by apply ends_with_task_name_final_segment.
  - apply ends_with_task_name_final_segment.
  - by vm_compute.
  - by vm_compute.
Qed.

(** C3: a directory without reserved subdirectories, whose final segment is
    not reserved, and which contains an entry whose name starts with
    [vasprun.xml] (any suffix) is accepted: the classifier returns
    [[parent]], after one glob of the directory. *)
Theorem get_valid_paths_leaf_output
    fs self parent subdirs files t entries rest :
  (∀ d, d ∈ subdirs → d ∉ task_names) →
  final_segment parent ∉ task_names →
  fs parent = inr entries →
  ("vasprun.xml" +:+ rest)%string ∈ entries →
  get_valid_paths fs self (parent, subdirs, files) t =
  (inr [parent], t ++ [EvGlob parent "vasprun.xml*"]).
Proof.
  intros Hsub Hseg Hfs Hin.
  rewrite get_valid_paths_glob.
  - rewrite Hfs.
    destruct (List.filter _ entries) as [|n l] eqn:Hf.
    + by destruct (proj1 (filter_vasprun_nil entries) Hf _ rest Hin).
    + rewrite bool_decide_eq_true_2; [done | simpl; lia].
  - by apply task_subdirs_empty.
  - apply not_true_is_false.
    by intros [? _]%ends_with_task_name_final_segment.
Qed.

(** C4, as the code has it: when neither rule applies, the second rule
    taken with the name test of the code (no reserved subdirectory; and the
    final segment of the path is reserved and preceded by a separator, or
    the directory is read and no entry starts with [vasprun.xml]) the
    classifier returns the empty list.  A bare reserved name such as
    [relax0] passes the name test, so the second rule can apply to it.  In
    every case the classifier returns [[]] or [[parent]], the parent string
    itself; the only other outcome is the error of the glob, which is
    raised and returns nothing. *)
Theorem get_valid_paths_otherwise_empty :
  (∀ fs self parent subdirs files t,
     (∀ d, d ∈ subdirs → d ∉ task_names) →
     ((final_segment parent ∈ task_names ∧ parent ≠ final_segment parent) ∨
      ∃ entries, fs parent = inr entries ∧
        ∀ n rest, n ∈ entries → n ≠ ("vasprun.xml" +:+ rest)%string) →
     (get_valid_paths fs self (parent, subdirs, files) t).1 = inr [])
  ∧ (∀ fs self parent subdirs files t,
       (get_valid_paths fs self (parent, subdirs, files) t).1 = inr [] ∨
       (get_valid_paths fs self (parent, subdirs, files) t).1 = inr [parent] ∨
       ∃ e, fs parent = inl e ∧
            (get_valid_paths fs self (parent, subdirs, files) t).1 = inl e).
Proof.
  split.
  - intros fs self parent subdirs files t Hsub%task_subdirs_empty Hrule2.
    destruct (ends_with_task_name parent) eqn:Hends.
    + by rewrite get_valid_paths_excluded.
    + destruct Hrule2 as [Hseg | (entries & Hfs & Hnone)].
      { apply ends_with_task_name_final_segment in Hseg. congruence. }
      rewrite get_valid_paths_glob, Hfs by done.
      by rewrite (proj2 (filter_vasprun_nil entries) Hnone).
  - intros fs self parent subdirs files t.
    destruct (decide (task_subdirs subdirs = ∅)) as [Hempty | Hne].
    + destruct (ends_with_task_name parent) eqn:Hends.
      * left. by rewrite get_valid_paths_excluded.
      * rewrite get_valid_paths_glob by done.
        destruct (fs parent) as [e | entries]; [right; right; by exists e |].
        case_bool_decide; [right | ]; by left.
    + right; left. by rewrite get_valid_paths_rule1.
Qed.

(** C5: the reserved names are exactly [precondition] and [relax0] to
    [relax8]; [relax9] is not one of them: a subdirectory of that name does
    not make the first rule apply, and a path ending in the segment [relax9]
    is not excluded by the second. *)
Theorem task_names_exact :
  task_names =
    ["precondition"; "relax0"; "relax1"; "relax2"; "relax3"; "relax4";
     "relax5"; "relax6"; "relax7"; "relax8"]%string
  ∧ ("relax9"%string ∉ task_names)
  ∧ (∀ subdirs, task_subdirs ("relax9"%string :: subdirs) = task_subdirs subdirs)
  ∧ (∀ fs self parent subdirs files t,
       get_valid_paths fs self (parent, "relax9"%string :: subdirs, files) t =
       get_valid_paths fs self (parent, subdirs, files) t)
  ∧ (∀ pre, ends_with_task_name (pre +:+ os_sep +:+ "relax9") = false).
Proof.
  assert ("relax9"%string ∉ task_names) as Hnot.
  { rewrite task_names_eq. apply (bool_decide_unpack _). by vm_compute. }
  assert (∀ subdirs,
            task_subdirs ("relax9"%string :: subdirs) = task_subdirs subdirs)
    as Hsub.
  { intros subdirs. unfold task_subdirs. apply set_eq. intros x.
    rewrite !elem_of_intersection, !elem_of_list_to_set, elem_of_cons.
    split; [intros [Hx [-> | Hin]]; done | intros [? ?]; eauto]. }
  split; [apply task_names_eq |]. split; [done |]. split; [done |]. split.
  - intros fs self parent subdirs files t. unfold get_valid_paths.
    by rewrite Hsub.
  - intros pre. apply not_true_is_false.
    intros [Hseg _]%ends_with_task_name_final_segment.
    by rewrite final_segment_app in Hseg.
Qed.

(** C6: the classifier depends on the subdirectories only as a set: two
    lists with the same elements, in any order and with any repetitions,
    give the same outcome. *)
Theorem get_valid_paths_subdirs_set fs self parent subdirs subdirs' files t :
  (∀ d, d ∈ subdirs ↔ d ∈ subdirs') →
  get_valid_paths fs self (parent, subdirs, files) t =
  get_valid_paths fs self (parent, subdirs', files) t.
Proof.
  intros Hsame.
  assert (task_subdirs subdirs = task_subdirs subdirs') as Heq.
  { unfold task_subdirs. apply set_eq. intros x.
    by rewrite !elem_of_intersection, !elem_of_list_to_set, Hsame. }
  unfold get_valid_paths. by rewrite Heq.
Qed.

(** C7: the files component has no influence: two calls that differ only
    in it have the same outcome. *)
Theorem get_valid_paths_files_irrelevant fs self parent subdirs files files' t :
  get_valid_paths fs self (parent, subdirs, files) t =
  get_valid_paths fs self (parent, subdirs, files') t.
Proof.
  (* the third component is bound to [_] and never read *)
  unfold get_valid_paths. reflexivity.
Qed.

(** C10: when the first rule applies the classifier touches no file system:
    it adds no event to the trace (no glob is evaluated), its outcome is the
    same on every file system, and it succeeds, also where reading the
    directory would raise. *)
Theorem get_valid_paths_container_no_glob fs self parent subdirs files t d :
  d ∈ subdirs → d ∈ task_names →
  (get_valid_paths fs self (parent, subdirs, files) t).2 = t
  ∧ (∀ fs', get_valid_paths fs' self (parent, subdirs, files) t =
            get_valid_paths fs self (parent, subdirs, files) t)
  ∧ (∀ e : BaseException,
       get_valid_paths (λ _, inl e) self (parent, subdirs, files) t =
       (inr [parent], t)).
Proof.
  intros Hd Hr.
  pose proof (task_subdirs_inhabited subdirs d Hd Hr) as Hne.
  split; [| split].
  - by rewrite get_valid_paths_rule1.
  - intros fs'. by rewrite !get_valid_paths_rule1.
  - intros e. by rewrite get_valid_paths_rule1.
Qed.

End ClassifierProperties.

(** ** Properties of [assimilate] *)

Section AssimilateProperties.

Context {BaseException TaskDocument Kwargs : Type}.
Context {runtime : Runtime BaseException TaskDocument Kwargs}.

Implicit Types (self : @VaspDrone Kwargs) (path : option string).
Implicit Types (t : @trace Kwargs) (e : BaseException) (doc : TaskDocument).

(** The run of [assimilate] in full, from what the environment answers:
    the working directory when no path is given, the parser, and the
    absolute path inside the handler. *)
Lemma assimilate_run self path t :
  assimilate self path t =
  match resolved_path path with
  | inl e0 => (inl e0, t)
  | inr p =>
      let kwargs := task_document_kwargs self in
      match TaskDocument_from_directory p kwargs with
      | inr doc => (inr doc, t ++ [EvParse p kwargs])
      | inl e =>
          if isinstance_Exception e
          then match Path_absolute p with
               | inr absolute =>
                   (inl e,
                    t ++ [EvParse p kwargs;
                          EvLog ERROR
                            ("Error in " +:+ absolute +:+ newline
                               +:+ traceback_format_exc e)])
               | inl e' => (inl e', t ++ [EvParse p kwargs])
               end
          else (inl e, t ++ [EvParse p kwargs])
      end
  end.
Proof.
  assert (∀ p, assimilate self (Some p) t =
               match resolved_path (Some p) with
               | inl e0 => (inl e0, t)
               | inr p =>
                   let kwargs := task_document_kwargs self in
                   match TaskDocument_from_directory p kwargs with
                   | inr doc => (inr doc, t ++ [EvParse p kwargs])
                   | inl e =>
                       if isinstance_Exception e
                       then match Path_absolute p with
                            | inr absolute =>
                                (inl e,
                                 t ++ [EvParse p kwargs;
                                       EvLog ERROR
                                         ("Error in " +:+ absolute +:+ newline
                                            +:+ traceback_format_exc e)])
                            | inl e' => (inl e', t ++ [EvParse p kwargs])
                            end
                       else (inl e, t ++ [EvParse p kwargs])
                   end
               end) as Hsome.
  { intros p. unfold assimilate, resolved_path. py_unfold. cbv zeta.
    destruct (TaskDocument_from_directory p _) as [e | doc]; [| done].
    destruct (isinstance_Exception e); [| done].
    destruct (Path_absolute p) as [e' | absolute]; [done |].
    unfold error_message. by rewrite <- app_assoc. }
  destruct path as [p |]; [apply Hsome |].
  unfold resolved_path. destruct Path_cwd as [e0 | c] eqn:Hcwd.
  - unfold assimilate. py_unfold. by rewrite Hcwd.
  - trans (assimilate self (Some c) t); [| exact (Hsome c)].
    unfold assimilate. py_unfold. by rewrite Hcwd.
Qed.

(** What [except Exception] does not catch ([KeyboardInterrupt],
    [SystemExit], ...) propagates without a log record. *)
Lemma assimilate_not_caught self path t p e :
  resolved_path path = inr p →
  TaskDocument_from_directory p (task_document_kwargs self) = inl e →
  isinstance_Exception e = false →
  assimilate self path t =
  (inl e, t ++ [EvParse p (task_document_kwargs self)]).
Proof.
  intros Hpath Hparse Hexc. rewrite assimilate_run, Hpath. cbv zeta.
  by rewrite Hparse, Hexc.
Qed.

(** C8, as the code has it: when the parser raises an exception that the
    handler's [except Exception] catches, and the absolute path is had,
    [assimilate] calls the parser once, logs one record of severity error
    whose message holds the absolute path and the formatted traceback, and
    raises the parser's exception itself; an exception that clause does not
    catch ([KeyboardInterrupt], [SystemExit], ...) is raised as it came,
    without a record; when the parser succeeds, [assimilate] returns its
    document and logs nothing. *)
Theorem assimilate_logs_and_reraises :
  (∀ self path t p e absolute,
     resolved_path path = inr p →
     TaskDocument_from_directory p (task_document_kwargs self) = inl e →
     isinstance_Exception e = true →
     Path_absolute p = inr absolute →
     assimilate self path t =
     (inl e,
      t ++ [EvParse p (task_document_kwargs self);
            EvLog ERROR
              ("Error in " +:+ absolute +:+ newline
                 +:+ traceback_format_exc e)]))
  ∧ (∀ self path t p e,
       resolved_path path = inr p →
       TaskDocument_from_directory p (task_document_kwargs self) = inl e →
       isinstance_Exception e = false →
       assimilate self path t =
       (inl e, t ++ [EvParse p (task_document_kwargs self)]))
  ∧ (∀ self path t p doc,
       resolved_path path = inr p →
       TaskDocument_from_directory p (task_document_kwargs self) = inr doc →
       assimilate self path t =
       (inr doc, t ++ [EvParse p (task_document_kwargs self)])).
Proof.
  split; [| split].
  - intros self path t p e absolute Hpath Hparse Hexc Habs.
    rewrite assimilate_run, Hpath. cbv zeta.
    by rewrite Hparse, Hexc, Habs.
  - intros self path t p e Hpath Hparse Hexc.
    rewrite assimilate_run, Hpath. cbv zeta. by rewrite Hparse, Hexc.
  - intros self path t p doc Hpath Hparse.
    rewrite assimilate_run, Hpath. cbv zeta. by rewrite Hparse.
Qed.

(** C9, as the code has it: without a path, when [Path.cwd()] returns the
    working directory, [assimilate] is [assimilate] on that directory and
    its first effect is the parser's call on it; when [Path.cwd()] raises,
    its exception comes out and the parser is not called.  No path is
    checked before the parser has it: for every path the first effect is
    the parser's call on that very path, and what the parser accepts is
    returned. *)
Theorem assimilate_default_cwd :
  (∀ self t cwd,
     Path_cwd = inr cwd →
     assimilate self None t = assimilate self (Some cwd) t
     ∧ ∃ rest, (assimilate self None t).2 =
                 t ++ EvParse cwd (task_document_kwargs self) :: rest)
  ∧ (∀ self t e, Path_cwd = inl e → assimilate self None t = (inl e, t))
  ∧ (∀ self t p,
       ∃ rest, (assimilate self (Some p) t).2 =
                 t ++ EvParse p (task_document_kwargs self) :: rest)
  ∧ (∀ self t p doc,
       TaskDocument_from_directory p (task_document_kwargs self) = inr doc →
       assimilate self (Some p) t =
       (inr doc, t ++ [EvParse p (task_document_kwargs self)])).
Proof.
  assert (∀ self t p,
            ∃ rest, (assimilate self (Some p) t).2 =
                      t ++ EvParse p (task_document_kwargs self) :: rest)
    as Hfirst.
  { intros self t p. rewrite assimilate_run. cbn [resolved_path]. cbv zeta.
    destruct (TaskDocument_from_directory _ _) as [e | doc];
      [destruct (isinstance_Exception e);
         [destruct (Path_absolute p) |] |]; eauto. }
  split; [| split; [| split]].
  - intros self t cwd Hcwd.
    assert (assimilate self None t = assimilate self (Some cwd) t) as Heq.
    { rewrite !assimilate_run. cbn [resolved_path]. by rewrite Hcwd. }
    split; [done |]. rewrite Heq. apply Hfirst.
  - intros self t e Hcwd. rewrite assimilate_run. cbn [resolved_path].
    by rewrite Hcwd.
  - apply Hfirst.
  - intros self t p doc Hparse. rewrite assimilate_run.
    cbn [resolved_path]. cbv zeta. by rewrite Hparse.
Qed.

End AssimilateProperties.

(** * Concrete runs *)

(** Decides a closed decidable proposition by evaluation. *)
Ltac by_evaluation := apply (bool_decide_unpack _); vm_compute; exact I.

(** Scenario A of the spec, on a file system where every read fails. *)
Lemma get_valid_paths_task_container_witness :
  "relax0"%string ∈ ["relax0"; "relax1"]%string
  ∧ "relax0"%string ∈ task_names
  ∧ get_valid_paths unreadable_fs demo_drone
      ("/run"%string, ["relax0"; "relax1"]%string, ["INCAR"%string]) [] =
    (inr ["/run"%string], []).
Proof.
  assert ("relax0"%string ∈ ["relax0"; "relax1"]%string) as Hd
    by by_evaluation.
  assert ("relax0"%string ∈ task_names) as Hr by by_evaluation.
  split; [exact Hd |]. split; [exact Hr |].
  exact (get_valid_paths_task_container unreadable_fs demo_drone
           "/run" ["relax0"; "relax1"]%string ["INCAR"%string] []
           "relax0" Hd Hr).
Defined.

(** Scenario B of the spec: a stage directory holding its own output. *)
Lemma get_valid_paths_reserved_suffix_witness :
  (∀ d : string, d ∈ ["backup"]%string → d ∉ task_names)
  ∧ final_segment "/run/relax0" ∈ task_names
  ∧ "/run/relax0"%string ≠ final_segment "/run/relax0"
  ∧ get_valid_paths demo_fs demo_drone
      ("/run/relax0"%string, ["backup"%string], ["vasprun.xml"%string]) [] =
    (inr [], []).
Proof.
  assert (∀ d : string, d ∈ ["backup"]%string → d ∉ task_names) as Hsub.
  { intros d ->%list_elem_of_singleton. by_evaluation. }
  assert (final_segment "/run/relax0" ∈ task_names) as Hseg by by_evaluation.
  assert ("/run/relax0"%string ≠ final_segment "/run/relax0") as Hne
    by by_evaluation.
  split; [exact Hsub |]. split; [exact Hseg |]. split; [exact Hne |].
  exact (proj1 get_valid_paths_reserved_suffix demo_fs demo_drone
           "/run/relax0"%string ["backup"%string] ["vasprun.xml"%string] []
           Hsub Hseg Hne).
Defined.

(** The claim C2 as the spec words it fails for a bare reserved name: the
    final segment of [relax0] is reserved and there is no reserved
    subdirectory, yet the directory, holding a [vasprun.xml], is accepted. *)
Lemma bare_task_name_is_accepted :
  (∀ d : string, d ∈ @nil string → d ∉ task_names)
  ∧ final_segment "relax0" ∈ task_names
  ∧ get_valid_paths demo_fs demo_drone
      ("relax0"%string, [], ["vasprun.xml"%string]) [] =
    (inr ["relax0"%string], [EvGlob "relax0" "vasprun.xml*"])
  ∧ (get_valid_paths demo_fs demo_drone
       ("relax0"%string, [], ["vasprun.xml"%string]) []).1 ≠ inr [].
Proof.
  split; [by intros d ?%elem_of_nil |].
  split; [by_evaluation |].
  split; [by vm_compute | by vm_compute].
Qed.

(** Scenario C of the spec. *)
Lemma get_valid_paths_leaf_output_witness :
  (∀ d : string, d ∈ ["backup"]%string → d ∉ task_names)
  ∧ (final_segment "/run/final" ∉ task_names)
  ∧ demo_fs "/run/final" = inr ["INCAR"; "vasprun.xml.gz"]%string
  ∧ ("vasprun.xml" +:+ ".gz")%string ∈ ["INCAR"; "vasprun.xml.gz"]%string
  ∧ get_valid_paths demo_fs demo_drone
      ("/run/final"%string, ["backup"%string], ["vasprun.xml.gz"%string]) [] =
    (inr ["/run/final"%string], [EvGlob "/run/final" "vasprun.xml*"]).
Proof.
  assert (∀ d : string, d ∈ ["backup"]%string → d ∉ task_names) as Hsub.
  { intros d ->%list_elem_of_singleton. by_evaluation. }
  assert (final_segment "/run/final" ∉ task_names) as Hseg by by_evaluation.
  assert (demo_fs "/run/final" = inr ["INCAR"; "vasprun.xml.gz"]%string)
    as Hfs by reflexivity.
  assert (("vasprun.xml" +:+ ".gz")%string ∈ ["INCAR"; "vasprun.xml.gz"]%string)
    as Hin by by_evaluation.
  split; [exact Hsub |]. split; [exact Hseg |]. split; [exact Hfs |].
  split; [exact Hin |].
  exact (get_valid_paths_leaf_output demo_fs demo_drone "/run/final"
           ["backup"%string] ["vasprun.xml.gz"%string] []
           ["INCAR"; "vasprun.xml.gz"]%string ".gz" Hsub Hseg Hfs Hin).
Defined.

(** Scenario D of the spec, nothing in the directory, and a stage directory
    that holds output. *)
Lemma get_valid_paths_otherwise_empty_witness :
  ((∀ d : string, d ∈ @nil string → d ∉ task_names)
   ∧ ((final_segment "/empty" ∈ task_names
       ∧ "/empty"%string ≠ final_segment "/empty") ∨
      ∃ entries, demo_fs "/empty" = inr entries ∧
        ∀ n rest, n ∈ entries → n ≠ ("vasprun.xml" +:+ rest)%string)
   ∧ (get_valid_paths demo_fs demo_drone ("/empty"%string, [], []) []).1 =
     inr [])
  ∧ ((∀ d : string, d ∈ ["backup"]%string → d ∉ task_names)
     ∧ ((final_segment "/run/relax0" ∈ task_names
         ∧ "/run/relax0"%string ≠ final_segment "/run/relax0") ∨
        ∃ entries, demo_fs "/run/relax0" = inr entries ∧
          ∀ n rest, n ∈ entries → n ≠ ("vasprun.xml" +:+ rest)%string)
     ∧ (get_valid_paths demo_fs demo_drone
          ("/run/relax0"%string, ["backup"%string], ["vasprun.xml"%string])
          []).1 = inr []).
Proof.
  assert (∀ d : string, d ∈ @nil string → d ∉ task_names) as Hsub
    by (by intros d ?%elem_of_nil).
  assert ((final_segment "/empty" ∈ task_names
           ∧ "/empty"%string ≠ final_segment "/empty") ∨
          ∃ entries, demo_fs "/empty" = inr entries ∧
            ∀ n rest, n ∈ entries → n ≠ ("vasprun.xml" +:+ rest)%string)
    as Hrule2.
  { right. exists []. split; [reflexivity | by intros n rest ?%elem_of_nil]. }
  assert (∀ d : string, d ∈ ["backup"]%string → d ∉ task_names) as Hsub'.
  { intros d ->%list_elem_of_singleton. by_evaluation. }
  assert ((final_segment "/run/relax0" ∈ task_names
           ∧ "/run/relax0"%string ≠ final_segment "/run/relax0") ∨
          ∃ entries, demo_fs "/run/relax0" = inr entries ∧
            ∀ n rest, n ∈ entries → n ≠ ("vasprun.xml" +:+ rest)%string)
    as Hrule2'.
  { left. split; by_evaluation. }
  split.
  - split; [exact Hsub |]. split; [exact Hrule2 |].
    exact (proj1 get_valid_paths_otherwise_empty demo_fs demo_drone
             "/empty"%string [] [] [] Hsub Hrule2).
  - split; [exact Hsub' |]. split; [exact Hrule2' |].
    exact (proj1 get_valid_paths_otherwise_empty demo_fs demo_drone
             "/run/relax0"%string ["backup"%string] ["vasprun.xml"%string]
             [] Hsub' Hrule2').
Defined.

(** The claim C4 as the spec words it, with the second rule asking for a
    final segment that is not reserved, fails for a bare reserved name:
    [relax0] has no reserved subdirectory and its final segment is
    reserved, so neither rule applies as worded, yet the directory, holding
    a [vasprun.xml], is accepted. *)
Lemma bare_task_name_is_not_rejected :
  (∀ d : string, d ∈ ["backup"]%string → d ∉ task_names)
  ∧ ¬ ((final_segment "relax0" ∉ task_names)
       ∧ ∃ entries rest, later_fs "relax0" = inr entries
           ∧ ("vasprun.xml" +:+ rest)%string ∈ entries)
  ∧ (get_valid_paths later_fs demo_drone
       ("relax0"%string, ["backup"%string], []) []).1 =
    inr ["relax0"%string]
  ∧ (get_valid_paths later_fs demo_drone
       ("relax0"%string, ["backup"%string], []) []).1 ≠ inr [].
Proof.
  split; [intros d ->%list_elem_of_singleton; by_evaluation |].
  split.
  - intros [Hseg _]. apply Hseg. by_evaluation.
  - split; by vm_compute.
Qed.

(** The same names, reordered and repeated. *)
Lemma get_valid_paths_subdirs_set_witness :
  (∀ d : string,
     d ∈ ["relax1"; "backup"]%string ↔
     d ∈ ["backup"; "relax1"; "backup"]%string)
  ∧ get_valid_paths demo_fs demo_drone
      ("/run"%string, ["relax1"; "backup"]%string, []) [] =
    get_valid_paths demo_fs demo_drone
      ("/run"%string, ["backup"; "relax1"; "backup"]%string, []) [].
Proof.
  assert (∀ d : string,
            d ∈ ["relax1"; "backup"]%string ↔
            d ∈ ["backup"; "relax1"; "backup"]%string) as Hsame.
  { intros d. rewrite !elem_of_cons, !elem_of_nil. tauto. }
  split; [exact Hsame |].
  exact (get_valid_paths_subdirs_set demo_fs demo_drone "/run"
           ["relax1"; "backup"]%string ["backup"; "relax1"; "backup"]%string
           [] [] Hsame).
Defined.

(** A container of staged runs whose own listing fails. *)
Lemma get_valid_paths_container_no_glob_witness :
  "relax2"%string ∈ ["relax2"]%string
  ∧ "relax2"%string ∈ task_names
  ∧ (get_valid_paths demo_fs demo_drone
       ("/faulty"%string, ["relax2"%string], []) []).2 = []
  ∧ (∀ fs', get_valid_paths fs' demo_drone
              ("/faulty"%string, ["relax2"%string], []) [] =
            get_valid_paths demo_fs demo_drone
              ("/faulty"%string, ["relax2"%string], []) [])
  ∧ (∀ e : py_exception,
       get_valid_paths (λ _, inl e) demo_drone
         ("/faulty"%string, ["relax2"%string], []) [] =
       (inr ["/faulty"%string], [])).
Proof.
  assert ("relax2"%string ∈ ["relax2"]%string) as Hd by by_evaluation.
  assert ("relax2"%string ∈ task_names) as Hr by by_evaluation.
  split; [exact Hd |]. split; [exact Hr |].
  exact (get_valid_paths_container_no_glob demo_fs demo_drone "/faulty"
           ["relax2"%string] [] [] "relax2" Hd Hr).
Defined.

(** A directory the parser rejects, a parse that is interrupted, and a
    directory the parser accepts. *)
Lemma assimilate_logs_and_reraises_witness :
  (resolved_path (runtime := demo_runtime) (Some "missing"%string) =
   inr "missing"%string
   ∧ demo_parser "missing" (task_document_kwargs demo_drone) =
     inl (FileNotFoundError "missing")
   ∧ py_isinstance_Exception (FileNotFoundError "missing") = true
   ∧ Path_absolute (Runtime := demo_runtime) "missing" =
     inr "/home/user/missing"%string
   ∧ demo_assimilate demo_drone (Some "missing"%string) [] =
     (inl (FileNotFoundError "missing"),
      [EvParse "missing" tt;
       EvLog ERROR
         ("Error in /home/user/missing" +:+ newline
            +:+ "FileNotFoundError: missing")]))
  ∧ (resolved_path (runtime := interrupted_runtime) None =
     inr "/home/user"%string
     ∧ TaskDocument_from_directory (Runtime := interrupted_runtime)
         "/home/user" (task_document_kwargs demo_drone) =
       inl KeyboardInterrupt
     ∧ py_isinstance_Exception KeyboardInterrupt = false
     ∧ assimilate (runtime := interrupted_runtime) demo_drone None [] =
       (inl KeyboardInterrupt, [EvParse "/home/user" tt]))
  ∧ (resolved_path (runtime := demo_runtime) (Some "/run/final"%string) =
     inr "/run/final"%string
     ∧ demo_parser "/run/final" (task_document_kwargs demo_drone) = inr 42
     ∧ demo_assimilate demo_drone (Some "/run/final"%string) [] =
       (inr 42, [EvParse "/run/final" tt])).
Proof.
  split; [| split].
  - split; [reflexivity |]. split; [reflexivity |].
    split; [reflexivity |]. split; [reflexivity |].
    exact (proj1 (assimilate_logs_and_reraises (runtime := demo_runtime))
             demo_drone (Some "missing"%string) [] "missing"%string
             (FileNotFoundError "missing") "/home/user/missing"%string
             eq_refl eq_refl eq_refl eq_refl).
  - split; [reflexivity |]. split; [reflexivity |]. split; [reflexivity |].
    exact (proj1 (proj2 (assimilate_logs_and_reraises
                           (runtime := interrupted_runtime)))
             demo_drone None [] "/home/user"%string KeyboardInterrupt
             eq_refl eq_refl eq_refl).
  - split; [reflexivity |]. split; [reflexivity |].
    exact (proj2 (proj2 (assimilate_logs_and_reraises
                           (runtime := demo_runtime)))
             demo_drone (Some "/run/final"%string) [] "/run/final"%string 42
             eq_refl eq_refl).
Defined.

(** The claim C8 as the spec words it fails for an exception that is not an
    [Exception]: the parser raises [KeyboardInterrupt] and no record is
    logged. *)
Lemma interrupted_parse_is_not_logged :
  TaskDocument_from_directory (Runtime := interrupted_runtime)
    "/run/final" (task_document_kwargs demo_drone) = inl KeyboardInterrupt
  ∧ assimilate (runtime := interrupted_runtime) demo_drone
      (Some "/run/final"%string) [] =
    (inl KeyboardInterrupt, [EvParse "/run/final" tt])
  ∧ ∀ lvl msg,
      EvLog lvl msg ∉
        (assimilate (runtime := interrupted_runtime) demo_drone
           (Some "/run/final"%string) []).2.
Proof.
  split; [reflexivity |]. split; [reflexivity |].
  intros lvl msg Hin. vm_compute in Hin.
  apply list_elem_of_singleton in Hin. discriminate Hin.
Qed.

(** With and without a working directory. *)
Lemma assimilate_default_cwd_witness :
  (Path_cwd (Runtime := demo_runtime) = inr "/home/user"%string
   ∧ demo_assimilate demo_drone None [] =
     demo_assimilate demo_drone (Some "/home/user"%string) []
   ∧ ∃ rest, (demo_assimilate demo_drone None []).2 =
               [] ++ EvParse "/home/user" (task_document_kwargs demo_drone)
                 :: rest)
  ∧ (Path_cwd (Runtime := no_cwd_runtime) =
     inl (FileNotFoundError "getcwd")
     ∧ assimilate (runtime := no_cwd_runtime) demo_drone None [] =
       (inl (FileNotFoundError "getcwd"), []))
  ∧ (demo_parser "/run/final" (task_document_kwargs demo_drone) = inr 42
     ∧ demo_assimilate demo_drone (Some "/run/final"%string) [] =
       (inr 42, [EvParse "/run/final" tt])).
Proof.
  split; [| split].
  - split; [reflexivity |].
    exact (proj1 (assimilate_default_cwd (runtime := demo_runtime))
             demo_drone [] "/home/user"%string eq_refl).
  - split; [reflexivity |].
    exact (proj1 (proj2 (assimilate_default_cwd (runtime := no_cwd_runtime)))
             demo_drone [] (FileNotFoundError "getcwd") eq_refl).
  - split; [reflexivity |].
    exact (proj2 (proj2 (proj2 (assimilate_default_cwd
                                  (runtime := demo_runtime))))
             demo_drone [] "/run/final"%string 42 eq_refl).
Defined.

(** The claim C9 as the spec words it fails when there is no working
    directory to default to: [Path.cwd()] raises before the parser is
    called. *)
Lemma no_cwd_parser_not_called :
  assimilate (runtime := no_cwd_runtime) demo_drone None [] =
  (inl (FileNotFoundError "getcwd"), [])
  ∧ ∀ p kwargs,
      EvParse p kwargs ∉
        (assimilate (runtime := no_cwd_runtime) demo_drone None []).2.
Proof.
  split; [reflexivity |].
  intros p kwargs Hin. vm_compute in Hin. by apply elem_of_nil in Hin.
Qed.

(** A directory whose listing fails, reached by the second rule: the error
    comes out. *)
Example get_valid_paths_faulty :
  get_valid_paths demo_fs demo_drone ("/faulty"%string, [], []) [] =
  (inl (OSError "/faulty"), [EvGlob "/faulty" "vasprun.xml*"]).
Proof. by vm_compute. Qed.

(** * Further properties of the classifier *)

Lemma string_app_assoc (a b c : string) : (a +:+ b) +:+ c = a +:+ b +:+ c.
Proof. induction a as [|x a IH]; simpl; [done | by rewrite IH]. Qed.

Lemma prefix_sep_contains_sep (r : string) :
  String.prefix os_sep r = true → contains_sep r = true.
Proof. intros [rest ->]%prefix_spec. reflexivity. Qed.

Lemma task_subdirs_witness (subdirs : list string) :
  task_subdirs subdirs ≠ ∅ → ∃ d, d ∈ subdirs ∧ d ∈ task_names.
Proof.
  intros [d Hd]%set_choose_L. exists d.
  apply elem_of_intersection in Hd as [Hr Hs].
  by rewrite !elem_of_list_to_set in Hr, Hs.
Qed.

Lemma task_subdirs_app_empty (subdirs more : list string) :
  task_subdirs (subdirs ++ more) = ∅ → task_subdirs subdirs = ∅.
Proof.
  rewrite !task_subdirs_empty. intros Hall d Hd.
  apply Hall, elem_of_app. by left.
Qed.

Lemma filter_vasprun_cons (entries : list string) :
  (∃ rest, ("vasprun.xml" +:+ rest)%string ∈ entries) ↔
  0 < length (List.filter (λ n, fnmatchcase n "vasprun.xml*") entries).
Proof.
  split.
  - intros [rest Hin].
    destruct (List.filter _ entries) as [|n l] eqn:Hf; [| simpl; lia].
    by destruct (proj1 (filter_vasprun_nil entries) Hf _ rest Hin).
  - intros Hlen.
    destruct (List.filter _ entries) as [|n l] eqn:Hf; [simpl in Hlen; lia |].
    assert (In n (List.filter (λ n, fnmatchcase n "vasprun.xml*") entries))
      as [Hn Hmatch]%filter_In by (rewrite Hf; by left).
    apply fnmatchcase_vasprun in Hmatch as [rest ->].
    exists rest. by apply list_elem_of_In.
Qed.

Section ClassifierOutcomes.

Context {BaseException Kwargs : Type}.
Implicit Types (fs : @FileSystem BaseException) (self : @VaspDrone Kwargs).
Implicit Types (parent d : string) (subdirs files entries : list string).
Implicit Types (t : @trace Kwargs) (e : BaseException).

(** X1: the classifier accepts a directory exactly when it has a
    subdirectory with a reserved name, or when its path does not end with a
    separator and a reserved name and its listing, read without error, has
    an entry that starts with [vasprun.xml]. *)
Theorem get_valid_paths_accepts_iff fs self parent subdirs files t :
  (get_valid_paths fs self (parent, subdirs, files) t).1 = inr [parent] ↔
  (∃ d, d ∈ subdirs ∧ d ∈ task_names) ∨
  (ends_with_task_name parent = false ∧
   ∃ entries, fs parent = inr entries ∧
     ∃ rest, ("vasprun.xml" +:+ rest)%string ∈ entries).
Proof.
  destruct (decide (task_subdirs subdirs = ∅)) as [Hempty | Hne].
  - pose proof (proj1 (task_subdirs_empty subdirs) Hempty) as Hnone.
    destruct (ends_with_task_name parent) eqn:Hends.
    + rewrite get_valid_paths_excluded by done. split; [done |].
      intros [(d & Hd & Hr) | [? _]]; [by destruct (Hnone d) | done].
    + rewrite get_valid_paths_glob by done.
      destruct (fs parent) as [e | entries] eqn:Hfs.
      * split; [done |].
        intros [(d & Hd & Hr) | (_ & ? & ? & _)]; [by destruct (Hnone d) | done].
      * cbn [fst]. split.
        -- intros Hres. right. split; [done |]. exists entries. split; [done |].
           apply filter_vasprun_cons. by case_bool_decide.
        -- intros [(d & Hd & Hr) | (_ & l & [= <-] & Hin)];
             [by destruct (Hnone d) |].
           apply filter_vasprun_cons in Hin.
           by rewrite bool_decide_eq_true_2.
  - rewrite get_valid_paths_rule1 by done. split; [| done].
    intros _. left. by apply task_subdirs_witness.
Qed.

(** X2: the classifier rejects a directory exactly when it has no reserved
    subdirectory and either its path ends with a separator and a reserved
    name, or its listing is read and no entry starts with [vasprun.xml]. *)
Theorem get_valid_paths_rejects_iff fs self parent subdirs files t :
  (get_valid_paths fs self (parent, subdirs, files) t).1 = inr [] ↔
  (∀ d, d ∈ subdirs → d ∉ task_names) ∧
  (ends_with_task_name parent = true ∨
   ∃ entries, fs parent = inr entries ∧
     ∀ n rest, n ∈ entries → n ≠ ("vasprun.xml" +:+ rest)%string).
Proof.
  rewrite <- task_subdirs_empty.
  destruct (decide (task_subdirs subdirs = ∅)) as [Hempty | Hne].
  - destruct (ends_with_task_name parent) eqn:Hends.
    + rewrite get_valid_paths_excluded by done. split; [| done].
      intros _. split; [done | by left].
    + rewrite get_valid_paths_glob by done.
      destruct (fs parent) as [e | entries] eqn:Hfs.
      * split; [done | by intros [_ [? | (? & ? & _)]]].
      * cbn [fst]. split.
        -- intros Hres. split; [done |]. right. exists entries. split; [done |].
           apply filter_vasprun_nil.
           case_bool_decide as Hlen; [done |].
           destruct (List.filter _ entries); [done | simpl in Hlen; lia].
        -- intros [_ [? | (l & [= <-] & Hnone)]]; [done |].
           by rewrite (proj2 (filter_vasprun_nil entries) Hnone).
  - rewrite get_valid_paths_rule1 by done. split; [done | by intros [? _]].
Qed.

(** X3: the classifier raises exactly the error of the glob, and only when
    the glob is reached: no reserved subdirectory, and a path that does not
    end with a separator and a reserved name.  It raises nothing of its own
    and hides no error. *)
Theorem get_valid_paths_raises_iff fs self parent subdirs files t e :
  (get_valid_paths fs self (parent, subdirs, files) t).1 = inl e ↔
  (∀ d, d ∈ subdirs → d ∉ task_names) ∧
  ends_with_task_name parent = false ∧
  fs parent = inl e.
Proof.
  rewrite <- task_subdirs_empty.
  destruct (decide (task_subdirs subdirs = ∅)) as [Hempty | Hne].
  - destruct (ends_with_task_name parent) eqn:Hends.
    + rewrite get_valid_paths_excluded by done.
      split; [done | by intros (_ & ? & _)].
    + rewrite get_valid_paths_glob by done.
      destruct (fs parent) as [e' | entries] eqn:Hfs; cbn [fst].
      * split; [by intros [= ->] | by intros (_ & _ & [= ->])].
      * split; [done | by intros (_ & _ & ?)].
  - rewrite get_valid_paths_rule1 by done.
    split; [done | by intros [? _]].
Qed.

(** X4: the classifier looks at the file system at [parent] only: on two
    file systems that agree there, it has the same outcome and effects. *)
Theorem get_valid_paths_local fs fs' self parent subdirs files t :
  fs parent = fs' parent →
  get_valid_paths fs self (parent, subdirs, files) t =
  get_valid_paths fs' self (parent, subdirs, files) t.
Proof.
  intros Hsame.
  destruct (decide (task_subdirs subdirs = ∅)) as [Hempty | Hne].
  - destruct (ends_with_task_name parent) eqn:Hends.
    + by rewrite !get_valid_paths_excluded.
    + by rewrite !get_valid_paths_glob, Hsame.
  - by rewrite !get_valid_paths_rule1.
Qed.

(** X5: the only effect of the classifier is at most one glob, of [parent]
    itself with the pattern [vasprun.xml*], done exactly when there is no
    reserved subdirectory and the path does not end with a separator and a
    reserved name; it never calls the parser and never logs. *)
Theorem get_valid_paths_effects fs self parent subdirs files t :
  (get_valid_paths fs self (parent, subdirs, files) t).2 =
  if bool_decide (Forall (λ d, d ∉ task_names) subdirs)
     && negb (ends_with_task_name parent)
  then t ++ [EvGlob parent "vasprun.xml*"]
  else t.
Proof.
  destruct (decide (task_subdirs subdirs = ∅)) as [Hempty | Hne].
  - rewrite bool_decide_eq_true_2
      by by apply Forall_forall, task_subdirs_empty.
    destruct (ends_with_task_name parent) eqn:Hends.
    + by rewrite get_valid_paths_excluded.
    + rewrite get_valid_paths_glob by done. by destruct (fs parent).
  - rewrite bool_decide_eq_false_2
      by by rewrite Forall_forall, <- task_subdirs_empty.
    by rewrite get_valid_paths_rule1.
Qed.

End ClassifierOutcomes.

(** ** The classifier along a walk *)

Lemma ends_with_task_name_trailing_sep (q : string) :
  ends_with_task_name (q +:+ os_sep) = false.
Proof.
  apply not_true_is_false.
  intros [Hseg _]%ends_with_task_name_final_segment.
  change (q +:+ os_sep) with (q +:+ os_sep +:+ "") in Hseg.
  rewrite final_segment_app in Hseg by done.
  revert Hseg. apply (bool_decide_unpack _). by vm_compute.
Qed.

Lemma ends_with_task_name_join (top r : string) :
  top ≠ ""%string → r ∈ task_names →
  ends_with_task_name (os_path_join top r) = true.
Proof.
  intros Htop Hr. apply ends_with_task_name_spec. exists r.
  unfold os_path_join.
  destruct (String.prefix os_sep r) eqn:Hpre.
  { apply prefix_sep_contains_sep in Hpre.
    by rewrite (task_names_no_sep r Hr) in Hpre. }
  apply String.eqb_neq in Htop. rewrite Htop. cbn [orb].
  destruct (endswith top os_sep) eqn:Hends.
  - apply endswith_spec in Hends as [pre ->].
    exists pre. by rewrite string_app_assoc.
  - by exists top.
Qed.

Section ClassifierWalk.

Context {BaseException Kwargs : Type}.
Implicit Types (fs : @FileSystem BaseException) (self : @VaspDrone Kwargs).
Implicit Types (parent top q r d : string).
Implicit Types (subdirs more files entries : list string).
Implicit Types (t : @trace Kwargs).

(** X6: the stage directories of a run are not tasks of their own: the path
    that [os.walk] forms for a subdirectory with a reserved name, of any
    directory it visits, is rejected without a look at the file system,
    unless that subdirectory has reserved subdirectories itself. *)
Theorem get_valid_paths_stage_of_walk fs self top r subdirs files t :
  top ≠ ""%string →
  r ∈ task_names →
  (∀ d, d ∈ subdirs → d ∉ task_names) →
  get_valid_paths fs self (os_path_join top r, subdirs, files) t =
  (inr [], t).
Proof.
  intros Htop Hr Hsub. apply get_valid_paths_excluded.
  - by apply task_subdirs_empty.
  - by apply ends_with_task_name_join.
Qed.

(** X7: a path written with a trailing separator is never excluded by its
    name, a stage directory such as [calc/relax1/] included: without
    reserved subdirectories it is accepted as soon as it holds an entry
    that starts with [vasprun.xml]. *)
Theorem get_valid_paths_trailing_separator
    fs self q subdirs files t entries rest :
  (∀ d, d ∈ subdirs → d ∉ task_names) →
  fs (q +:+ os_sep) = inr entries →
  ("vasprun.xml" +:+ rest)%string ∈ entries →
  get_valid_paths fs self (q +:+ os_sep, subdirs, files) t =
  (inr [q +:+ os_sep], t ++ [EvGlob (q +:+ os_sep) "vasprun.xml*"]).
Proof.
  intros Hsub%task_subdirs_empty Hfs Hin.
  rewrite get_valid_paths_glob, Hfs
    by (done || apply ends_with_task_name_trailing_sep).
  rewrite bool_decide_eq_true_2; [done |].
  apply filter_vasprun_cons. by exists rest.
Qed.

(** X8: more subdirectories never turn an accepted directory into a
    rejected one. *)
Theorem get_valid_paths_more_subdirs fs self parent subdirs more files t :
  (get_valid_paths fs self (parent, subdirs, files) t).1 = inr [parent] →
  (get_valid_paths fs self (parent, subdirs ++ more, files) t).1 =
  inr [parent].
Proof.
  intros Hacc.
  destruct (decide (task_subdirs (subdirs ++ more) = ∅)) as [Hempty | Hne].
  - pose proof (task_subdirs_app_empty _ _ Hempty) as Hempty'.
    destruct (ends_with_task_name parent) eqn:Hends.
    + by rewrite get_valid_paths_excluded in Hacc.
    + rewrite get_valid_paths_glob in Hacc |- * by done. done.
  - by rewrite get_valid_paths_rule1.
Qed.

(** X9: more entries in the directory never turn an accepted directory
    into a rejected one. *)
Theorem get_valid_paths_more_entries
    fs fs' self parent subdirs files t entries entries' :
  fs parent = inr entries →
  fs' parent = inr entries' →
  (∀ n, n ∈ entries → n ∈ entries') →
  (get_valid_paths fs self (parent, subdirs, files) t).1 = inr [parent] →
  (get_valid_paths fs' self (parent, subdirs, files) t).1 = inr [parent].
Proof.
  intros Hfs Hfs' Hincl Hacc.
  destruct (decide (task_subdirs subdirs = ∅)) as [Hempty | Hne].
  - destruct (ends_with_task_name parent) eqn:Hends.
    + by rewrite get_valid_paths_excluded in Hacc.
    + rewrite get_valid_paths_glob in Hacc |- * by done.
      rewrite Hfs in Hacc. rewrite Hfs'. cbn [fst] in *.
      rewrite bool_decide_eq_true_2; [done |].
      apply filter_vasprun_cons.
      case_bool_decide as Hlen; [| done].
      apply filter_vasprun_cons in Hlen as [rest Hin].
      exists rest. by apply Hincl.
  - by rewrite get_valid_paths_rule1.
Qed.

End ClassifierWalk.

(** * Further properties of [assimilate] *)

Section AssimilateEffects.

Context {BaseException TaskDocument Kwargs : Type}.
Context {runtime : Runtime BaseException TaskDocument Kwargs}.

Implicit Types (self : @VaspDrone Kwargs) (path : option string).
Implicit Types (t : @trace Kwargs) (kwargs : Kwargs) (e : BaseException).

(** X10: an exception of the parser that [except Exception] does not catch
    ([KeyboardInterrupt], [SystemExit], ...) leaves [assimilate] as it
    came, after the one call of the parser and without a log record. *)
Theorem assimilate_uncaught_unlogged self path t p e :
  resolved_path path = inr p →
  TaskDocument_from_directory p (task_document_kwargs self) = inl e →
  isinstance_Exception e = false →
  assimilate self path t =
  (inl e, t ++ [EvParse p (task_document_kwargs self)]).
Proof.
  intros Hpath Hparse Hexc. rewrite assimilate_run, Hpath. cbv zeta.
  by rewrite Hparse, Hexc.
Qed.

(** X11: the effects of one call of [assimilate], from what the
    environment answers: no effect at all when [Path.cwd()] raises;
    otherwise one call of the parser on the path, followed by one error
    record exactly when the parser raised an exception that
    [except Exception] catches and the absolute path was had, by nothing
    otherwise.  No record on success, never a second call of the parser,
    never a glob. *)
Theorem assimilate_effects self path t :
  (assimilate self path t).2 =
  t ++
  match resolved_path path with
  | inl _ => []
  | inr p =>
      EvParse p (task_document_kwargs self)
      :: match TaskDocument_from_directory p (task_document_kwargs self),
               Path_absolute p with
         | inl e, inr absolute =>
             if isinstance_Exception e
             then [EvLog ERROR
                     ("Error in " +:+ absolute +:+ newline
                        +:+ traceback_format_exc e)]
             else []
         | _, _ => []
         end
  end.
Proof.
  rewrite assimilate_run.
  destruct (resolved_path path) as [e0 | p]; [by rewrite app_nil_r |].
  cbv zeta.
  destruct (TaskDocument_from_directory _ _) as [e | doc].
  - destruct (isinstance_Exception e),
      (Path_absolute p) as [e' | absolute]; done.
  - by destruct (Path_absolute p).
Qed.


(** X13: when the handler cannot have the absolute path (a relative path
    and no working directory), the exception of [absolute()] leaves
    [assimilate] in place of the parser's, and no record is logged. *)
Theorem assimilate_handler_failure self path t p e e' :
  resolved_path path = inr p →
  TaskDocument_from_directory p (task_document_kwargs self) = inl e →
  isinstance_Exception e = true →
  Path_absolute p = inl e' →
  assimilate self path t =
  (inl e', t ++ [EvParse p (task_document_kwargs self)]).
Proof.
  intros Hpath Hparse Hexc Habs. rewrite assimilate_run, Hpath. cbv zeta.
  by rewrite Hparse, Hexc, Habs.
Qed.

End AssimilateEffects.

(** * Concrete runs of the further properties *)

(** Two file systems that differ at [/run/final] only. *)
Lemma get_valid_paths_local_witness :
  demo_fs "relax0" = later_fs "relax0"
  ∧ get_valid_paths demo_fs demo_drone
      ("relax0"%string, ["backup"%string], []) [] =
    get_valid_paths later_fs demo_drone
      ("relax0"%string, ["backup"%string], []) [].
Proof.
  assert (demo_fs "relax0" = later_fs "relax0") as Hsame by reflexivity.
  split; [exact Hsame |].
  exact (get_valid_paths_local demo_fs later_fs demo_drone "relax0"
           ["backup"%string] [] [] Hsame).
Defined.

(** The stage [relax0] of the run [/run], as the walk reaches it. *)
Lemma get_valid_paths_stage_of_walk_witness :
  "/run"%string ≠ ""%string
  ∧ "relax0"%string ∈ task_names
  ∧ (∀ d : string, d ∈ @nil string → d ∉ task_names)
  ∧ os_path_join "/run" "relax0" = "/run/relax0"%string
  ∧ get_valid_paths demo_fs demo_drone
      (os_path_join "/run" "relax0", [], ["vasprun.xml"%string]) [] =
    (inr [], []).
Proof.
  assert ("/run"%string ≠ ""%string) as Htop by by_evaluation.
  assert ("relax0"%string ∈ task_names) as Hr by by_evaluation.
  assert (∀ d : string, d ∈ @nil string → d ∉ task_names) as Hsub
    by (by intros d ?%elem_of_nil).
  split; [exact Htop |]. split; [exact Hr |]. split; [exact Hsub |].
  split; [reflexivity |].
  exact (get_valid_paths_stage_of_walk demo_fs demo_drone "/run" "relax0"
           [] ["vasprun.xml"%string] [] Htop Hr Hsub).
Defined.

(** The same stage directory, named with a trailing separator. *)
Lemma get_valid_paths_trailing_separator_witness :
  (∀ d : string, d ∈ @nil string → d ∉ task_names)
  ∧ trailing_fs ("calc/relax1" +:+ os_sep) = inr ["OUTCAR"; "vasprun.xml"]%string
  ∧ ("vasprun.xml" +:+ "")%string ∈ ["OUTCAR"; "vasprun.xml"]%string
  ∧ get_valid_paths trailing_fs demo_drone
      ("calc/relax1/"%string, [], []) [] =
    (inr ["calc/relax1/"%string], [EvGlob "calc/relax1/" "vasprun.xml*"]).
Proof.
  assert (∀ d : string, d ∈ @nil string → d ∉ task_names) as Hsub
    by (by intros d ?%elem_of_nil).
  assert (trailing_fs ("calc/relax1" +:+ os_sep) =
          inr ["OUTCAR"; "vasprun.xml"]%string) as Hfs by reflexivity.
  assert (("vasprun.xml" +:+ "")%string ∈ ["OUTCAR"; "vasprun.xml"]%string)
    as Hin by by_evaluation.
  split; [exact Hsub |]. split; [exact Hfs |]. split; [exact Hin |].
  exact (get_valid_paths_trailing_separator trailing_fs demo_drone
           "calc/relax1" [] [] [] ["OUTCAR"; "vasprun.xml"]%string ""
           Hsub Hfs Hin).
Defined.

(** A leaf directory that gains a stage subdirectory stays accepted. *)
Lemma get_valid_paths_more_subdirs_witness :
  (get_valid_paths demo_fs demo_drone
     ("/run/final"%string, ["backup"%string], []) []).1 =
  inr ["/run/final"%string]
  ∧ (get_valid_paths demo_fs demo_drone
       ("/run/final"%string, ["backup"] ++ ["relax0"; "notes"], [])
       []).1 =
    inr ["/run/final"%string].
Proof.
  assert ((get_valid_paths demo_fs demo_drone
             ("/run/final"%string, ["backup"%string], []) []).1 =
          inr ["/run/final"%string]) as Hacc by (by vm_compute).
  split; [exact Hacc |].
  exact (get_valid_paths_more_subdirs demo_fs demo_drone "/run/final"
           ["backup"] ["relax0"; "notes"] [] [] Hacc).
Defined.

(** [/run/final] before and after more output is written there. *)
Lemma get_valid_paths_more_entries_witness :
  demo_fs "/run/final" = inr ["INCAR"; "vasprun.xml.gz"]%string
  ∧ later_fs "/run/final" =
    inr ["vasprun.xml.gz"; "OUTCAR"; "INCAR"; "CONTCAR"]%string
  ∧ (∀ n : string,
       n ∈ ["INCAR"; "vasprun.xml.gz"]%string →
       n ∈ ["vasprun.xml.gz"; "OUTCAR"; "INCAR"; "CONTCAR"]%string)
  ∧ (get_valid_paths demo_fs demo_drone
       ("/run/final"%string, [], []) []).1 = inr ["/run/final"%string]
  ∧ (get_valid_paths later_fs demo_drone
       ("/run/final"%string, [], []) []).1 = inr ["/run/final"%string].
Proof.
  assert (demo_fs "/run/final" = inr ["INCAR"; "vasprun.xml.gz"]%string)
    as Hfs by reflexivity.
  assert (later_fs "/run/final" =
          inr ["vasprun.xml.gz"; "OUTCAR"; "INCAR"; "CONTCAR"]%string)
    as Hfs' by reflexivity.
  assert (∀ n : string,
            n ∈ ["INCAR"; "vasprun.xml.gz"]%string →
            n ∈ ["vasprun.xml.gz"; "OUTCAR"; "INCAR"; "CONTCAR"]%string)
    as Hincl.
  { intros n. rewrite !elem_of_cons, !elem_of_nil. tauto. }
  assert ((get_valid_paths demo_fs demo_drone
             ("/run/final"%string, [], []) []).1 =
          inr ["/run/final"%string]) as Hacc by (by vm_compute).
  split; [exact Hfs |]. split; [exact Hfs' |]. split; [exact Hincl |].
  split; [exact Hacc |].
  exact (get_valid_paths_more_entries demo_fs later_fs demo_drone
           "/run/final" [] [] [] _ _ Hfs Hfs' Hincl Hacc).
Defined.

(** A parse interrupted from the keyboard: no record is logged. *)
Lemma assimilate_uncaught_unlogged_witness :
  resolved_path (runtime := interrupted_runtime) None =
  inr "/home/user"%string
  ∧ TaskDocument_from_directory (Runtime := interrupted_runtime)
      "/home/user" (task_document_kwargs demo_drone) =
    inl KeyboardInterrupt
  ∧ isinstance_Exception (Runtime := interrupted_runtime) KeyboardInterrupt
    = false
  ∧ assimilate (runtime := interrupted_runtime) demo_drone None [] =
    (inl KeyboardInterrupt, [EvParse "/home/user" tt]).
Proof.
  split; [reflexivity |]. split; [reflexivity |]. split; [reflexivity |].
  exact (assimilate_uncaught_unlogged (runtime := interrupted_runtime)
           demo_drone None [] "/home/user"%string KeyboardInterrupt
           eq_refl eq_refl eq_refl).
Defined.

(** A relative path the parser rejects, with no working directory. *)
Lemma assimilate_handler_failure_witness :
  resolved_path (runtime := no_cwd_runtime) (Some "missing"%string) =
  inr "missing"%string
  ∧ TaskDocument_from_directory (Runtime := no_cwd_runtime)
      "missing" (task_document_kwargs demo_drone) =
    inl (FileNotFoundError "missing")
  ∧ isinstance_Exception (Runtime := no_cwd_runtime)
      (FileNotFoundError "missing") = true
  ∧ Path_absolute (Runtime := no_cwd_runtime) "missing" =
    inl (FileNotFoundError "getcwd")
  ∧ assimilate (runtime := no_cwd_runtime) demo_drone
      (Some "missing"%string) [] =
    (inl (FileNotFoundError "getcwd"), [EvParse "missing" tt]).
Proof.
  split; [reflexivity |]. split; [reflexivity |]. split; [reflexivity |].
  split; [reflexivity |].
  exact (assimilate_handler_failure (runtime := no_cwd_runtime)
           demo_drone (Some "missing"%string) [] "missing"%string
           (FileNotFoundError "missing") (FileNotFoundError "getcwd")
           eq_refl eq_refl eq_refl eq_refl).
Defined.
